(** * pkgdoc: package documentation prepared from source

    A shallow embedding of the Go package [pkgdoc] (the variant with
    sub-package discovery): the documentation model, the normalizer that
    fills it from the grouped declarations, [New], and the sub-package scan
    over the file system, followed by the properties proved of them. *)

From Stdlib Require Import String Ascii List ZArith Lia Bool.
From stdpp Require Import base list strings.

Local Open Scope string_scope.

(** * Part I: the program *)

(** ** Go values the package handles *)

(** Go's [error] interface, with the dynamic types that reach this package:
    [syscall.Errno], the sentinel [os.ErrNotExist], plain message errors
    ([errors.New], [fmt.Errorf], as the loader reports them) and
    [*os.PathError], which is what a failed directory listing carries. *)
Inductive error : Type :=
| Errno (n : Z)
| ErrNotExist
| errorString (s : string)
| PathError (Op Path : string) (Err : error).

Definition ENOENT : error := Errno 2.
Definition EACCES : error := Errno 13.

(** A Go result pair [(v, err)] in which exactly one side is meaningful. *)
Inductive Result (A : Type) : Type :=
| Ok (a : A)
| Err (e : error).
Arguments Ok {A} a.
Arguments Err {A} e.

Module os.

(** [os.FileInfo], as far as the package looks at it: [fi.Name()] and
    [fi.IsDir()]. *)
Record FileInfo : Type := mkFileInfo { Name : string; IsDir : bool }.

Definition underlyingError (err : error) : error :=
  match err with
  | PathError _ _ e => e
  | _ => err
  end.

(** [os.IsNotExist]: the error, unwrapped once, is ENOENT or ErrNotExist. *)
Definition IsNotExist (err : error) : bool :=
  match underlyingError err with
  | Errno 2 => true
  | ErrNotExist => true
  | _ => false
  end.

Definition IsPathSeparator (c : ascii) : bool := Ascii.eqb c "/"%char.

End os.

Module filepath.

(** [filepath.Ext]: scan from the last byte towards the front, stop at a
    path separator, return the suffix that starts at the first dot met.
    [Ext_loop path n] is the loop entered with [i = n - 1]. *)
Fixpoint Ext_loop (path : string) (n : nat) : string :=
  match n with
  | O => ""
  | S i =>
      match String.get i path with
      | Some c =>
          if os.IsPathSeparator c then ""
          else if Ascii.eqb c "."%char
               then String.substring i (String.length path - i) path
               else Ext_loop path i
      | None => ""
      end
  end.

Definition Ext (path : string) : string := Ext_loop path (String.length path).

End filepath.

(** ** The file system and the effect of listing a directory *)

(** What [ioutil.ReadDir] answers for each directory name: the entries in
    listing order, or the error of the failed open or read. *)
Definition FileSystem : Type := string -> Result (list os.FileInfo).

(** A computation that reads the file system.  Next to its value it yields
    the directory names it passed to [ioutil.ReadDir], in call order. *)
Definition IO (A : Type) : Type := FileSystem -> A * list string.

Definition ret {A : Type} (a : A) : IO A := fun _ => (a, []).

Definition bind {A B : Type} (m : IO A) (k : A -> IO B) : IO B :=
  fun fs =>
    let (a, t1) := m fs in
    let (b, t2) := k a fs in
    (b, (t1 ++ t2)%list).

Declare Scope io_scope.
Delimit Scope io_scope with io.
Notation "x <- m ;; k" := (bind m (fun x => k))
  (at level 100, m at next level, right associativity) : io_scope.

Module ioutil.

Definition ReadDir (dirname : string) : IO (Result (list os.FileInfo)) :=
  fun fs => (fs dirname, [dirname]).

End ioutil.

(** ** The documentation model *)

Definition Doc : Type := string.

Module Value.
Record t : Type := mk { Doc : Doc; Decl : string }.
End Value.
Abbreviation Value := Value.t.

Module Function.
Record t : Type := mk { Doc : Doc; Name : string; Decl : string }.
End Function.
Abbreviation Function := Function.t.

Module Type_.
Record t : Type := mk {
  Doc : Doc;
  Name : string;
  Decl : string;
  Constants : list Value;
  Variables : list Value;
  Functions : list Function;
  Methods : list Function
}.
End Type_.
Abbreviation Type_ := Type_.t.

Module Package.

Record t : Type := mk {
  Name : string;
  ImportPath : string;
  Doc : Doc;
  Synopsis : string;
  Constants : list Value;
  Variables : list Value;
  Functions : list Function;
  Types : list Type_;
  SubPackages : list string
}.

(** The composite literal [Package{}]. *)
Definition zero : t := mk "" "" "" "" [] [] [] [] [].

(** [p.SubPackages = append(p.SubPackages, dir)] through the pointer. *)
Definition appendSubPackage (p : t) (dir : string) : t :=
  mk (Name p) (ImportPath p) (Doc p) (Synopsis p) (Constants p)
     (Variables p) (Functions p) (Types p) (SubPackages p ++ [dir])%list.

End Package.
Abbreviation Package := Package.t.

(** ** Sub-package discovery *)

Module build.
(** The two fields of [build.Default] the package reads. *)
Record Context : Type := mkContext { GOPATH : string; GOROOT : string }.
End build.

Section Discovery.

(** [filepath.Join] and [build.Default] come from the Go installation. *)
Variable filepath_Join : list string -> string.
Variable build_Default : build.Context.

Fixpoint hasGoFiles_loop (fis : list os.FileInfo) : bool :=
  match fis with
  | [] => false
  | fi :: rest =>
      if String.eqb (filepath.Ext (os.Name fi)) ".go" then true
      else hasGoFiles_loop rest
  end.

Definition hasGoFiles (path : string) (fi : os.FileInfo) : IO bool :=
  (r <- ioutil.ReadDir path ;;
   match r with
   | Err _ => ret false
   | Ok fis => ret (hasGoFiles_loop fis)
   end)%io.

(** The [for _, fi := range fis] loop of [getSubPackages]; [p] is the
    package behind the pointer. *)
Fixpoint getSubPackages_loop (root : string) (fis : list os.FileInfo)
    (p : Package) : IO Package :=
  match fis with
  | [] => ret p
  | fi :: rest =>
      if os.IsDir fi then
        let dir := os.Name fi in
        let path := filepath_Join [root; dir] in
        (b <- hasGoFiles path fi ;;
         getSubPackages_loop root rest
           (if b then Package.appendSubPackage p dir else p))%io
      else getSubPackages_loop root rest p
  end.

Definition primaryRoot (p : Package) : string :=
  filepath_Join [build.GOPATH build_Default; "src"; Package.ImportPath p].

Definition secondaryRoot (p : Package) : string :=
  filepath_Join [build.GOROOT build_Default; "src"; Package.ImportPath p].

(** [getSubPackages(p *Package) error]: the package after the call and
    the returned error ([None] is [nil]). *)
Definition getSubPackages (p : Package) : IO (Package * option error) :=
  (let root := primaryRoot p in
   r <- ioutil.ReadDir root ;;
   match r with
   | Err err =>
       if negb (os.IsNotExist err) then ret (p, Some err)
       else
         let root := secondaryRoot p in
         r <- ioutil.ReadDir root ;;
         match r with
         | Err err => ret (p, Some err)
         | Ok fis =>
             p' <- getSubPackages_loop root fis p ;; ret (p', None)
         end
   | Ok fis => p' <- getSubPackages_loop root fis p ;; ret (p', None)
   end)%io.

End Discovery.

(** ** The collaborator package [go/doc] *)

Module doc.

(** The raw declarations [doc.New] groups.  [Node] is the syntax tree
    type of the declaration each one carries. *)
Section Raw.

Variable Node : Type.

Record Value : Type := mkValue { Value_Doc : string; Value_Decl : Node }.

Record Func : Type := mkFunc {
  Func_Doc : string; Func_Name : string; Func_Decl : Node
}.

Record Type_ : Type := mkType {
  Type_Doc : string;
  Type_Name : string;
  Type_Decl : Node;
  Type_Consts : list Value;
  Type_Vars : list Value;
  Type_Funcs : list Func;
  Type_Methods : list Func
}.

Record Package : Type := mkPackage {
  Doc : string;
  Name : string;
  ImportPath : string;
  Consts : list Value;
  Vars : list Value;
  Funcs : list Func;
  Types : list Type_
}.

End Raw.

Arguments mkValue {Node}.
Arguments mkFunc {Node}.
Arguments mkType {Node}.
Arguments mkPackage {Node}.
Arguments Value_Doc {Node}.
Arguments Value_Decl {Node}.
Arguments Func_Doc {Node}.
Arguments Func_Name {Node}.
Arguments Func_Decl {Node}.
Arguments Type_Doc {Node}.
Arguments Type_Name {Node}.
Arguments Type_Decl {Node}.
Arguments Type_Consts {Node}.
Arguments Type_Vars {Node}.
Arguments Type_Funcs {Node}.
Arguments Type_Methods {Node}.
Arguments Doc {Node}.
Arguments Name {Node}.
Arguments ImportPath {Node}.
Arguments Consts {Node}.
Arguments Vars {Node}.
Arguments Funcs {Node}.
Arguments Types {Node}.

End doc.

(** ** The model normalizer *)

Module Zero.
(** Zero values of the element types, as [make] fills a fresh slice. *)
Definition Value : Value := Value.mk "" "".
Definition Function : Function := Function.mk "" "" "".
Definition Type_ : Type_ := Type_.mk "" "" "" [] [] [] [].
End Zero.

(** The shape shared by [pkgValues], [pkgFunctions] and [pkgTypes]:
    [rv := make([]B, len(vs))], then [rv[i] = f(vs[i])] for [i] ranging
    over the indices of [vs].  Both indexings are in range there, which is
    where Go would panic otherwise. *)
Definition rangeAssign {A B : Type} (zero : B) (f : A -> B) (vs : list A)
    : list B :=
  foldl (fun (rv : list B) (i : nat) =>
           match vs !! i with
           | Some v => <[i := f v]> rv
           | None => rv
           end)
        (replicate (length vs) zero)
        (seq 0 (length vs)).

Section Normalizer.

(** Syntax trees and position tables belong to go/ast and go/token;
    [printer.Fprint] yields the bytes it wrote and its error. *)
Variable Node : Type.
Variable FileSet : Type.
Variable printer_Fprint : FileSet -> Node -> string * option error.

(** [decl] prints into a fresh buffer and drops the printer's error. *)
Definition decl (v : Node) (fset : FileSet) : string :=
  let (buf, _) := printer_Fprint fset v in buf.

(** [Doc.HTML]: what [doc.ToHTML] writes into a fresh buffer for the text,
    with no word map. *)
Variable doc_ToHTML : string -> string.

Definition Doc_HTML (d : Doc) : string := doc_ToHTML d.

Definition newValue (v : doc.Value Node) (fset : FileSet) : Value :=
  Value.mk (doc.Value_Doc v) (decl (doc.Value_Decl v) fset).

Definition pkgValues (vs : list (doc.Value Node)) (fset : FileSet)
    : list Value :=
  rangeAssign Zero.Value (fun v => newValue v fset) vs.

Definition newFunction (f : doc.Func Node) (fset : FileSet) : Function :=
  Function.mk (doc.Func_Doc f) (doc.Func_Name f)
              (decl (doc.Func_Decl f) fset).

Definition pkgFunctions (fs : list (doc.Func Node)) (fset : FileSet)
    : list Function :=
  rangeAssign Zero.Function (fun f => newFunction f fset) fs.

Definition newType (t : doc.Type_ Node) (fset : FileSet) : Type_ :=
  Type_.mk (doc.Type_Doc t) (doc.Type_Name t)
           (decl (doc.Type_Decl t) fset)
           (pkgValues (doc.Type_Consts t) fset)
           (pkgValues (doc.Type_Vars t) fset)
           (pkgFunctions (doc.Type_Funcs t) fset)
           (pkgFunctions (doc.Type_Methods t) fset).

Definition pkgTypes (ts : list (doc.Type_ Node)) (fset : FileSet)
    : list Type_ :=
  rangeAssign Zero.Type_ (fun t => newType t fset) ts.

(** ** [New] *)

(** The loader and the grouping step: [loader_Load name] is
    [conf.Import(name); conf.Load()], [Fset prog] is [prog.Fset], and
    [doc_New prog name] is the [*doc.Package] that [doc.New] builds from
    the files of [prog.Package(name)]. *)
Variable Program : Type.
Variable loader_Load : string -> Result Program.
Variable Fset : Program -> FileSet.
Variable doc_New : Program -> string -> doc.Package Node.

(** [doc.Synopsis] belongs to go/doc as well: the first sentence of a
    documentation text, as the Go release in use extracts it. *)
Variable doc_Synopsis : string -> string.

Variable filepath_Join : list string -> string.
Variable build_Default : build.Context.

(** The composite literal [pdoc] of [New], before discovery. *)
Definition buildPackage (prog : Program) (name : string) : Package :=
  let dpkg := doc_New prog name in
  Package.mk (doc.Name dpkg)
             (doc.ImportPath dpkg)
             (doc.Doc dpkg)
             (doc_Synopsis (doc.Doc dpkg))
             (pkgValues (doc.Consts dpkg) (Fset prog))
             (pkgValues (doc.Vars dpkg) (Fset prog))
             (pkgFunctions (doc.Funcs dpkg) (Fset prog))
             (pkgTypes (doc.Types dpkg) (Fset prog))
             [].

Definition New (name : string) : IO (Package * option error) :=
  match loader_Load name with
  | Err err => ret (Package.zero, Some err)
  | Ok prog =>
      let pdoc := buildPackage prog name in
      (r <- getSubPackages filepath_Join build_Default pdoc ;;
       match r with
       | (pdoc, Some err) => ret (pdoc, Some err)
       | (pdoc, None) => ret (pdoc, None)
       end)%io
  end.

End Normalizer.

(** ** The variant without sub-package discovery (pkgdoc.go) *)

Module Plain.

(** [Package] as pkgdoc.go declares it: no [SubPackages] field. *)
Record Package : Type := mkPackage {
  Name : string;
  ImportPath : string;
  Doc : Doc;
  Synopsis : string;
  Constants : list Value;
  Variables : list Value;
  Functions : list Function;
  Types : list Type_
}.

(** The composite literal [Package{}]. *)
Definition zero : Package := mkPackage "" "" "" "" [] [] [] [].

Section PlainNew.

Variable Node : Type.
Variable FileSet : Type.
Variable printer_Fprint : FileSet -> Node -> string * option error.
Variable Program : Type.
Variable loader_Load : string -> Result Program.
Variable Fset : Program -> FileSet.
Variable doc_New : Program -> string -> doc.Package Node.
Variable doc_Synopsis : string -> string.

(** [New(repo string) (Package, error)] of pkgdoc.go; its helpers
    [pkgValues], [pkgFunctions], [pkgTypes] read the same there. *)
Definition New (repo : string) : Package * option error :=
  match loader_Load repo with
  | Err err => (zero, Some err)
  | Ok prog =>
      let dpkg := doc_New prog repo in
      (mkPackage (doc.Name dpkg)
                 (doc.ImportPath dpkg)
                 (doc.Doc dpkg)
                 (doc_Synopsis (doc.Doc dpkg))
                 (pkgValues Node FileSet printer_Fprint
                    (doc.Consts dpkg) (Fset prog))
                 (pkgValues Node FileSet printer_Fprint
                    (doc.Vars dpkg) (Fset prog))
                 (pkgFunctions Node FileSet printer_Fprint
                    (doc.Funcs dpkg) (Fset prog))
                 (pkgTypes Node FileSet printer_Fprint
                    (doc.Types dpkg) (Fset prog)),
       None)
  end.

End PlainNew.

End Plain.

(** * Part II: vocabulary of the statements *)

(** [s] ends in [suffix]. *)
Definition HasSuffix (s suffix : string) : Prop :=
  exists pre : string, s = pre +:+ suffix.

(** [p] with its [SubPackages] field replaced. *)
Definition withSubPackages (p : Package) (subs : list string) : Package :=
  Package.mk (Package.Name p) (Package.ImportPath p) (Package.Doc p)
             (Package.Synopsis p) (Package.Constants p) (Package.Variables p)
             (Package.Functions p) (Package.Types p) subs.

(** The listing of [path] succeeds and shows an entry with extension .go. *)
Definition listsGoEntry (fs : FileSystem) (path : string) : bool :=
  match fs path with
  | Ok es => existsb (fun e => String.eqb (filepath.Ext (os.Name e)) ".go") es
  | Err _ => false
  end.

(** [out] has as many entries as [raw], and its [i]-th entry is [f]
    applied to the [i]-th entry of [raw]. *)
Definition builtInOrder {A B : Type} (f : A -> B) (raw : list A)
    (out : list B) : Prop :=
  length out = length raw /\
  forall i : nat, out !! i = f <$> (raw !! i).

Section DiscoveryVocabulary.

Variable Join : list string -> string.
Variable ctx : build.Context.

(** The names one pass over the listing [fis] of [root] appends. *)
Definition discovered (fs : FileSystem) (root : string)
    (fis : list os.FileInfo) : list string :=
  List.map os.Name
    (List.filter
       (fun fi => os.IsDir fi && listsGoEntry fs (Join [root; os.Name fi]))
       fis).

(** The directories one pass over the listing [fis] of [root] lists. *)
Definition visited (root : string) (fis : list os.FileInfo) : list string :=
  List.map (fun fi => Join [root; os.Name fi]) (List.filter os.IsDir fis).

(** The root whose listing the scan runs over, if any: the primary root
    when it can be listed, the secondary root when the primary one does
    not exist and the secondary one can be listed. *)
Definition resolvedRoot (p : Package) (fs : FileSystem)
    : option (string * list os.FileInfo) :=
  match fs (primaryRoot Join ctx p) with
  | Ok fis => Some (primaryRoot Join ctx p, fis)
  | Err e =>
      if os.IsNotExist e then
        match fs (secondaryRoot Join ctx p) with
        | Ok fis => Some (secondaryRoot Join ctx p, fis)
        | Err _ => None
        end
      else None
  end.

End DiscoveryVocabulary.

Section NewVocabulary.

Variable Node : Type.
Variable FileSet : Type.
Variable printer_Fprint : FileSet -> Node -> string * option error.
Variable Program : Type.
Variable Fset : Program -> FileSet.
Variable doc_New : Program -> string -> doc.Package Node.
Variable doc_Synopsis : string -> string.

(** The declaration fields of [p] are those [New] computes from the
    grouped declarations of [prog]. *)
Definition populated (prog : Program) (name : string) (p : Package) : Prop :=
  let dpkg := doc_New prog name in
  Package.Name p = doc.Name dpkg /\
  Package.ImportPath p = doc.ImportPath dpkg /\
  Package.Doc p = doc.Doc dpkg /\
  Package.Synopsis p = doc_Synopsis (doc.Doc dpkg) /\
  Package.Constants p
  = pkgValues Node FileSet printer_Fprint (doc.Consts dpkg) (Fset prog) /\
  Package.Variables p
  = pkgValues Node FileSet printer_Fprint (doc.Vars dpkg) (Fset prog) /\
  Package.Functions p
  = pkgFunctions Node FileSet printer_Fprint (doc.Funcs dpkg) (Fset prog) /\
  Package.Types p
  = pkgTypes Node FileSet printer_Fprint (doc.Types dpkg) (Fset prog).

End NewVocabulary.

(** The eight fields a [Package] shares with the variant of pkgdoc.go. *)
Definition withoutSubPackages (p : Package) : Plain.Package :=
  Plain.mkPackage (Package.Name p) (Package.ImportPath p) (Package.Doc p)
                  (Package.Synopsis p) (Package.Constants p)
                  (Package.Variables p) (Package.Functions p)
                  (Package.Types p).

(** ** A sample environment to run the program in *)

Module Sample.

(** [filepath.Join] on non-empty elements that are already clean: the
    elements separated by a slash. *)
Definition Join (elem : list string) : string := String.concat "/" elem.

Definition ctx : build.Context :=
  build.mkContext "/home/gopher/go" "/usr/local/go".

Definition dir (name : string) : os.FileInfo := os.mkFileInfo name true.
Definition file (name : string) : os.FileInfo := os.mkFileInfo name false.

Definition notExist (path : string) : error := PathError "open" path ENOENT.
Definition denied (path : string) : error := PathError "open" path EACCES.

(** A file system given by the directories it answers for; every other
    name does not exist. *)
Fixpoint lookup (dirs : list (string * Result (list os.FileInfo)))
    (path : string) : Result (list os.FileInfo) :=
  match dirs with
  | [] => Err (notExist path)
  | (name, r) :: rest => if String.eqb name path then r else lookup rest path
  end.

Definition pkg : Package :=
  Package.mk "p" "example.com/p" "" "" [] [] [] [] [].

(** A workspace package with two source directories, an empty directory,
    a directory of other files, and a directory that cannot be read. *)
Definition workspace : FileSystem :=
  lookup
    [ ("/home/gopher/go/src/example.com/p",
       Ok [dir "A"; dir "B"; dir "C"; dir "D"; dir "E"; file "p.go"]);
      ("/home/gopher/go/src/example.com/p/A", Ok [file "a.go"]);
      ("/home/gopher/go/src/example.com/p/B", Ok []);
      ("/home/gopher/go/src/example.com/p/C", Ok [file "README.md"]);
      ("/home/gopher/go/src/example.com/p/D",
       Err (denied "/home/gopher/go/src/example.com/p/D"));
      ("/home/gopher/go/src/example.com/p/E",
       Ok [file "doc.txt"; file "e.go"]) ].

(** The package lives under GOROOT only. *)
Definition stdlib : FileSystem :=
  lookup
    [ ("/usr/local/go/src/example.com/p", Ok [dir "A"; file "p.go"]);
      ("/usr/local/go/src/example.com/p/A", Ok [file "a.go"]) ].

(** The workspace root cannot be read, the GOROOT one can. *)
Definition locked : FileSystem :=
  lookup
    [ ("/home/gopher/go/src/example.com/p",
       Err (denied "/home/gopher/go/src/example.com/p"));
      ("/usr/local/go/src/example.com/p", Ok [dir "A"]);
      ("/usr/local/go/src/example.com/p/A", Ok [file "a.go"]) ].

(** Neither root exists. *)
Definition nowhere : FileSystem := lookup [].

(** A sub-directory whose only entry is itself a directory, named like a
    source file. *)
Definition nested : FileSystem :=
  lookup
    [ ("/home/gopher/go/src/example.com/p", Ok [dir "A"]);
      ("/home/gopher/go/src/example.com/p/A", Ok [dir "x.go"]);
      ("/home/gopher/go/src/example.com/p/A/x.go", Ok [file "README.md"]) ].

(** [stdlib] with more in it: another workspace package, and a directory
    two levels below the package. *)
Definition grown : FileSystem :=
  lookup
    [ ("/usr/local/go/src/example.com/p", Ok [dir "A"; file "p.go"]);
      ("/usr/local/go/src/example.com/p/A", Ok [file "a.go"]);
      ("/usr/local/go/src/example.com/p/A/deep", Ok [file "d.go"]);
      ("/home/gopher/go/src/example.com/other", Ok [dir "Z"]) ].

(** A loader that knows one package: a constant block, a function, and a
    type with a method.  Syntax trees are stood for by their source text,
    which the printer writes out as it is. *)
Definition Fprint (fset : unit) (v : string) : string * option error :=
  (v, None).

Definition dpkg : doc.Package string :=
  doc.mkPackage "Package p does things. More follows." "p" "example.com/p"
    [doc.mkValue "Limits." "const Max = 10"]
    []
    [doc.mkFunc "Run runs." "Run" "func Run()"]
    [doc.mkType "T is a thing." "T" "type T struct{}" [] [] []
       [doc.mkFunc "Do does." "Do" "func (t T) Do()"]].

Definition Load (name : string) : Result unit :=
  if String.eqb name "example.com/p" then Ok tt
  else Err (errorString "couldn't load packages due to errors").

(** What [doc.Synopsis] answers for the one documentation text of the
    sample; no other text is asked for there. *)
Definition Synopsis (text : string) : string :=
  if String.eqb text "Package p does things. More follows."
  then "Package p does things."
  else "".

Definition New : string -> IO (Package * option error) :=
  New string unit Fprint unit Load (fun _ => tt) (fun _ _ => dpkg) Synopsis
      Join ctx.

End Sample.

(** * Part III: properties *)

(** ** Strings and [filepath.Ext] *)

Lemma string_length_app (s1 s2 : string) :
  String.length (s1 +:+ s2) = (String.length s1 + String.length s2)%nat.
Proof. induction s1 as [|c s1 IH]; simpl; [reflexivity | now rewrite IH]. Qed.

Lemma substring_whole (s : string) :
  String.substring 0 (String.length s) s = s.
Proof. induction s as [|c s IH]; simpl; [reflexivity | now rewrite IH]. Qed.

Lemma substring_split (s : string) (i : nat) :
  (i <= String.length s)%nat ->
  s = String.substring 0 i s +:+ String.substring i (String.length s - i) s.
Proof.
  revert i. induction s as [|c s IH]; intros [|i] Hi; simpl in *;
    try reflexivity; try lia.
  - now rewrite substring_whole.
  - change (String c s = String c (String.substring 0 i s +:+
             String.substring i (String.length s - i) s)).
    f_equal. apply IH. lia.
Qed.

Lemma substring_app_r (s1 s2 : string) (n : nat) :
  String.substring (String.length s1) n (s1 +:+ s2) = String.substring 0 n s2.
Proof. induction s1 as [|c s1 IH]; simpl; [reflexivity | exact IH]. Qed.

Lemma get_app_r (s1 s2 : string) (n : nat) :
  String.get (String.length s1 + n) (s1 +:+ s2) = String.get n s2.
Proof. induction s1 as [|c s1 IH]; simpl; [reflexivity | exact IH]. Qed.

(** Whatever [filepath.Ext] returns, if not empty, is the suffix of the
    path that starts at one of the positions the loop visited. *)
Lemma Ext_loop_suffix (path : string) (n : nat) :
  (n <= String.length path)%nat ->
  filepath.Ext_loop path n <> "" ->
  exists i : nat,
    (i < n)%nat /\
    filepath.Ext_loop path n
    = String.substring i (String.length path - i) path.
Proof.
  induction n as [|i IH]; intros Hn Hne; simpl in *; [congruence|].
  destruct (String.get i path) as [c|]; [|congruence].
  destruct (os.IsPathSeparator c); [congruence|].
  destruct (Ascii.eqb c "."%char).
  - exists i. split; [lia | reflexivity].
  - destruct IH as (j & Hj & E); [lia | assumption |].
    exists j. split; [lia | exact E].
Qed.

(** The test [filepath.Ext(name) == ".go"] holds exactly of the names that
    end in ".go". *)
Lemma Ext_go_iff (name : string) :
  filepath.Ext name = ".go" <-> HasSuffix name ".go".
Proof.
  split.
  - intros E. unfold filepath.Ext in E.
    destruct (Ext_loop_suffix name (String.length name)) as (i & Hi & Ei);
      [lia | rewrite E; discriminate |].
    exists (String.substring 0 i name).
    rewrite <- E, Ei. apply substring_split. lia.
  - intros [pre ->]. unfold filepath.Ext.
    rewrite string_length_app. simpl String.length.
    replace (String.length pre + 3)%nat
      with (S (S (S (String.length pre)))) by lia.
    simpl filepath.Ext_loop.
    replace (S (S (String.length pre))) with (String.length pre + 2)%nat by lia.
    rewrite get_app_r. simpl.
    replace (S (String.length pre)) with (String.length pre + 1)%nat by lia.
    rewrite get_app_r. simpl.
    replace (String.length pre) with (String.length pre + 0)%nat at 1 by lia.
    rewrite get_app_r. simpl.
    rewrite string_length_app. simpl String.length.
    replace (String.length pre + 3 - String.length pre)%nat with 3%nat by lia.
    rewrite substring_app_r. reflexivity.
Qed.

(** ** Runs of the discovery loop and of [getSubPackages] *)

Section DiscoveryFacts.

Variable Join : list string -> string.
Variable ctx : build.Context.

Lemma hasGoFiles_loop_existsb (fis : list os.FileInfo) :
  hasGoFiles_loop fis
  = existsb (fun e => String.eqb (filepath.Ext (os.Name e)) ".go") fis.
Proof.
  induction fis as [|fi rest IH]; simpl; [reflexivity|].
  destruct (String.eqb _ _); [reflexivity | exact IH].
Qed.

Lemma hasGoFiles_run (path : string) (fi : os.FileInfo) (fs : FileSystem) :
  hasGoFiles path fi fs = (listsGoEntry fs path, [path]).
Proof.
  unfold hasGoFiles, bind, ioutil.ReadDir, listsGoEntry, ret.
  destruct (fs path) as [es|e]; simpl;
    [now rewrite hasGoFiles_loop_existsb | reflexivity].
Qed.

Lemma listsGoEntry_iff (fs : FileSystem) (path : string) :
  listsGoEntry fs path = true <->
  exists (es : list os.FileInfo) (e : os.FileInfo),
    fs path = Ok es /\ In e es /\ HasSuffix (os.Name e) ".go".
Proof.
  unfold listsGoEntry. split.
  - destruct (fs path) as [es|err]; [|discriminate].
    intros H. apply existsb_exists in H as (e & Hin & He).
    exists es, e. repeat split; trivial.
    apply Ext_go_iff. now apply String.eqb_eq.
  - intros (es & e & -> & Hin & Hs). apply existsb_exists.
    exists e. split; [assumption|].
    apply String.eqb_eq. now apply Ext_go_iff.
Qed.

Lemma withSubPackages_id (p : Package) :
  withSubPackages p (Package.SubPackages p) = p.
Proof. now destruct p. Qed.

Lemma appendSubPackage_with (p : Package) (l : list string) (dir : string) :
  Package.appendSubPackage (withSubPackages p l) dir
  = withSubPackages p (l ++ [dir])%list.
Proof. reflexivity. Qed.

Lemma discovered_iff (fs : FileSystem) (root : string)
    (fis : list os.FileInfo) (name : string) :
  In name (discovered Join fs root fis) <->
  exists fi : os.FileInfo,
    In fi fis /\ os.Name fi = name /\ os.IsDir fi = true /\
    listsGoEntry fs (Join [root; name]) = true.
Proof.
  unfold discovered. rewrite in_map_iff. split.
  - intros (fi & <- & Hf). apply filter_In in Hf as (Hin & Hb).
    apply andb_true_iff in Hb as (Hd & Hg). now exists fi.
  - intros (fi & Hin & <- & Hd & Hg). exists fi. split; [reflexivity|].
    apply filter_In. split; [assumption|]. now rewrite Hd, Hg.
Qed.

Lemma discovered_app (fs : FileSystem) (root : string)
    (l1 l2 : list os.FileInfo) :
  discovered Join fs root (l1 ++ l2)
  = (discovered Join fs root l1 ++ discovered Join fs root l2)%list.
Proof. unfold discovered. now rewrite List.filter_app, List.map_app. Qed.

Lemma visited_In (root : string) (fis : list os.FileInfo) (d : os.FileInfo) :
  In d fis -> os.IsDir d = true ->
  In (Join [root; os.Name d]) (visited Join root fis).
Proof.
  intros Hin Hd. unfold visited. apply in_map_iff. exists d.
  split; [reflexivity|]. apply filter_In. now split.
Qed.

(** One pass of the loop, started with any [SubPackages] value [l]. *)
Lemma loop_run_from (root : string) (fis : list os.FileInfo) (p : Package)
    (l : list string) (fs : FileSystem) :
  getSubPackages_loop Join root fis (withSubPackages p l) fs
  = (withSubPackages p (l ++ discovered Join fs root fis)%list,
     visited Join root fis).
Proof.
  revert l. induction fis as [|fi rest IH]; intros l.
  - simpl. unfold ret, discovered. simpl. now rewrite app_nil_r.
  - cbn [getSubPackages_loop]. unfold discovered, visited. cbn [List.filter].
    destruct (os.IsDir fi); cbn [andb]; [|apply IH].
    unfold bind. rewrite hasGoFiles_run.
    destruct (listsGoEntry fs (Join [root; os.Name fi])).
    + rewrite appendSubPackage_with, IH. cbn [List.map].
      unfold discovered, visited. now rewrite <- app_assoc.
    + rewrite IH. reflexivity.
Qed.

Lemma loop_run (root : string) (fis : list os.FileInfo) (p : Package)
    (fs : FileSystem) :
  getSubPackages_loop Join root fis p fs
  = (withSubPackages p
       (Package.SubPackages p ++ discovered Join fs root fis)%list,
     visited Join root fis).
Proof.
  rewrite <- (withSubPackages_id p) at 1. apply loop_run_from.
Qed.

(** The four runs of [getSubPackages]. *)
Lemma getSubPackages_primary_ok p fs fis :
  fs (primaryRoot Join ctx p) = Ok fis ->
  getSubPackages Join ctx p fs
  = ((withSubPackages p
        (Package.SubPackages p
         ++ discovered Join fs (primaryRoot Join ctx p) fis)%list,
      None),
     primaryRoot Join ctx p :: visited Join (primaryRoot Join ctx p) fis).
Proof.
  intros H. unfold getSubPackages, bind at 1, ioutil.ReadDir. rewrite H.
  unfold bind. rewrite loop_run. unfold ret. simpl.
  now rewrite app_nil_r.
Qed.

Lemma getSubPackages_primary_fatal p fs e :
  fs (primaryRoot Join ctx p) = Err e -> os.IsNotExist e = false ->
  getSubPackages Join ctx p fs = ((p, Some e), [primaryRoot Join ctx p]).
Proof.
  intros H Hne. unfold getSubPackages, bind, ioutil.ReadDir.
  rewrite H, Hne. reflexivity.
Qed.

Lemma getSubPackages_secondary_ok p fs e fis :
  fs (primaryRoot Join ctx p) = Err e -> os.IsNotExist e = true ->
  fs (secondaryRoot Join ctx p) = Ok fis ->
  getSubPackages Join ctx p fs
  = ((withSubPackages p
        (Package.SubPackages p
         ++ discovered Join fs (secondaryRoot Join ctx p) fis)%list,
      None),
     primaryRoot Join ctx p :: secondaryRoot Join ctx p
       :: visited Join (secondaryRoot Join ctx p) fis).
Proof.
  intros H Hne H2. unfold getSubPackages, bind at 1, ioutil.ReadDir.
  rewrite H, Hne. cbn [negb]. unfold bind at 1. rewrite H2.
  unfold bind. rewrite loop_run. unfold ret. simpl.
  now rewrite app_nil_r.
Qed.

Lemma getSubPackages_secondary_fatal p fs e e2 :
  fs (primaryRoot Join ctx p) = Err e -> os.IsNotExist e = true ->
  fs (secondaryRoot Join ctx p) = Err e2 ->
  getSubPackages Join ctx p fs
  = ((p, Some e2), [primaryRoot Join ctx p; secondaryRoot Join ctx p]).
Proof.
  intros H Hne H2. unfold getSubPackages, bind at 1, ioutil.ReadDir.
  rewrite H, Hne. cbn [negb]. unfold bind. rewrite H2. reflexivity.
Qed.

End DiscoveryFacts.

(** Rewrites a call of [getSubPackages] with the run that the listings
    recorded in the context select. *)
Ltac run_getSubPackages :=
  match goal with
  | E1 : ?fs (primaryRoot ?J ?c ?p) = Ok ?fis
    |- context [getSubPackages ?J ?c ?p ?fs] =>
      rewrite (getSubPackages_primary_ok J c p fs fis E1)
  | E1 : ?fs (primaryRoot ?J ?c ?p) = Err ?e, N1 : os.IsNotExist ?e = false
    |- context [getSubPackages ?J ?c ?p ?fs] =>
      rewrite (getSubPackages_primary_fatal J c p fs e E1 N1)
  | E1 : ?fs (primaryRoot ?J ?c ?p) = Err ?e, N1 : os.IsNotExist ?e = true,
    E2 : ?fs (secondaryRoot ?J ?c ?p) = Ok ?fis
    |- context [getSubPackages ?J ?c ?p ?fs] =>
      rewrite (getSubPackages_secondary_ok J c p fs e fis E1 N1 E2)
  | E1 : ?fs (primaryRoot ?J ?c ?p) = Err ?e, N1 : os.IsNotExist ?e = true,
    E2 : ?fs (secondaryRoot ?J ?c ?p) = Err ?e2
    |- context [getSubPackages ?J ?c ?p ?fs] =>
      rewrite (getSubPackages_secondary_fatal J c p fs e e2 E1 N1 E2)
  end.

(** Splits on the listing of the primary root and, where the run gets
    that far, on the kind of its error and on the listing of the
    secondary root. *)
Ltac split_on_roots J c p fs :=
  let fis1 := fresh "fis1" in
  let e1 := fresh "e1" in
  let fis2 := fresh "fis2" in
  let e2 := fresh "e2" in
  let E1 := fresh "E1" in
  let N1 := fresh "N1" in
  let E2 := fresh "E2" in
  destruct (fs (primaryRoot J c p)) as [fis1|e1] eqn:E1;
  [ | destruct (os.IsNotExist e1) eqn:N1;
      [ destruct (fs (secondaryRoot J c p)) as [fis2|e2] eqn:E2 | ] ].

(** ** What the scan records, and which root it reads *)

Section DiscoveryTheorems.

Variable Join : list string -> string.
Variable ctx : build.Context.

(** When a root resolves, the scan over its listing is the whole result. *)
Lemma getSubPackages_resolved p fs root fis :
  resolvedRoot Join ctx p fs = Some (root, fis) ->
  fst (getSubPackages Join ctx p fs)
  = (withSubPackages p
       (Package.SubPackages p ++ discovered Join fs root fis)%list, None)
  /\ exists pre : list string,
       snd (getSubPackages Join ctx p fs)
       = (pre ++ visited Join root fis)%list.
Proof.
  unfold resolvedRoot. intros H.
  split_on_roots Join ctx p fs; try discriminate;
    injection H as <- <-; run_getSubPackages; (split; [reflexivity|]).
  - now exists [primaryRoot Join ctx p].
  - now exists [primaryRoot Join ctx p; secondaryRoot Join ctx p].
Qed.

(** When no root resolves, the package is returned as it was, with the
    error of a listing. *)
Lemma getSubPackages_unresolved p fs :
  resolvedRoot Join ctx p fs = None ->
  exists e : error, fst (getSubPackages Join ctx p fs) = (p, Some e).
Proof.
  unfold resolvedRoot. intros H.
  split_on_roots Join ctx p fs; try discriminate;
    run_getSubPackages; eauto.
Qed.

(** What the scan does as it is written.  When a root resolves with
    listing [fis], the scan succeeds and appends to [SubPackages], in
    listing order, the bare name of each entry of [fis] that is a
    directory whose own listing succeeds and shows at least one entry whose
    name ends in ".go"; the kind of that entry is not looked at.  What is
    appended is [os.Name fi], never the joined path. *)
Theorem getSubPackages_records p fs root fis :
  resolvedRoot Join ctx p fs = Some (root, fis) ->
  exists subs : list string,
    fst (getSubPackages Join ctx p fs)
    = (withSubPackages p (Package.SubPackages p ++ subs)%list, None) /\
    subs = List.map os.Name
             (List.filter
                (fun fi => os.IsDir fi
                           && listsGoEntry fs (Join [root; os.Name fi])) fis) /\
    forall name : string,
      In name subs <->
      exists fi : os.FileInfo,
        In fi fis /\ os.Name fi = name /\ os.IsDir fi = true /\
        exists (es : list os.FileInfo) (e : os.FileInfo),
          fs (Join [root; name]) = Ok es /\ In e es /\
          HasSuffix (os.Name e) ".go".
Proof.
  intros H. exists (discovered Join fs root fis).
  split; [apply (getSubPackages_resolved p fs root fis H)|].
  split; [reflexivity|].
  intros name. rewrite discovered_iff.
  split; intros (fi & Hin & Hn & Hd & Hg); exists fi;
    repeat split; trivial; now apply listsGoEntry_iff.
Qed.

(** C9.  When listing the primary root fails with an error that is not a
    non-existence error, [getSubPackages] returns that very error, leaves
    the package as it was, and has listed the primary root and nothing
    else: the secondary root is not consulted, whatever the file system
    holds there. *)
Theorem getSubPackages_primary_error_is_final p fs e :
  fs (primaryRoot Join ctx p) = Err e ->
  os.IsNotExist e = false ->
  getSubPackages Join ctx p fs = ((p, Some e), [primaryRoot Join ctx p]).
Proof.
  intros Hlist Hkind.
  unfold getSubPackages, bind, ioutil.ReadDir.
  rewrite Hlist. cbn iota. rewrite Hkind. cbn [negb]. reflexivity.
Qed.

(** C3.  Discovery lists the primary root first.  If that listing
    succeeds the scan runs over it and the secondary root is not listed.
    If it fails because the directory does not exist, the secondary root
    is listed next, and the scan runs over its listing or its error is
    returned.  When both listings fail, the error returned is the error of
    a listing: the secondary root's when the primary root does not exist,
    the primary root's otherwise. *)
Theorem getSubPackages_root_fallback p fs :
  (exists rest : list string,
      snd (getSubPackages Join ctx p fs) = primaryRoot Join ctx p :: rest) /\
  (forall fis,
      fs (primaryRoot Join ctx p) = Ok fis ->
      getSubPackages Join ctx p fs
      = ((fst (getSubPackages_loop Join (primaryRoot Join ctx p) fis p fs),
          None),
         primaryRoot Join ctx p
           :: snd (getSubPackages_loop Join (primaryRoot Join ctx p)
                     fis p fs))) /\
  (forall e1,
      fs (primaryRoot Join ctx p) = Err e1 -> os.IsNotExist e1 = true ->
      match fs (secondaryRoot Join ctx p) with
      | Ok fis =>
          getSubPackages Join ctx p fs
          = ((fst (getSubPackages_loop Join (secondaryRoot Join ctx p)
                     fis p fs),
              None),
             primaryRoot Join ctx p :: secondaryRoot Join ctx p
               :: snd (getSubPackages_loop Join (secondaryRoot Join ctx p)
                         fis p fs))
      | Err e2 =>
          getSubPackages Join ctx p fs
          = ((p, Some e2),
             [primaryRoot Join ctx p; secondaryRoot Join ctx p])
      end) /\
  (forall e1 e2,
      fs (primaryRoot Join ctx p) = Err e1 ->
      fs (secondaryRoot Join ctx p) = Err e2 ->
      fst (getSubPackages Join ctx p fs)
      = (p, Some (if os.IsNotExist e1 then e2 else e1))).
Proof.
  repeat split.
  - split_on_roots Join ctx p fs; run_getSubPackages; eauto.
  - intros fis E1. rewrite loop_run. now run_getSubPackages.
  - intros e1 E1 N1.
    destruct (fs (secondaryRoot Join ctx p)) as [fis2|e2] eqn:E2;
      rewrite ?loop_run; now run_getSubPackages.
  - intros e1 e2 E1 E2.
    destruct (os.IsNotExist e1) eqn:N1; now run_getSubPackages.
Qed.

(** C8.  Let the resolved root list [l1 ++ d :: l2], where [d] is a
    directory whose own listing fails with [e].  Then [hasGoFiles] answers
    false for [d]; the scan returns no error; [SubPackages] gains exactly
    what [l1] and [l2] contribute, and the name of [d] is not among that;
    and every directory of [l2] is still listed after the failure. *)
Theorem unlistable_subdirectory_is_skipped p fs root l1 d l2 e :
  resolvedRoot Join ctx p fs = Some (root, (l1 ++ d :: l2)%list) ->
  os.IsDir d = true ->
  fs (Join [root; os.Name d]) = Err e ->
  fst (hasGoFiles (Join [root; os.Name d]) d fs) = false /\
  fst (getSubPackages Join ctx p fs)
  = (withSubPackages p
       (Package.SubPackages p
        ++ discovered Join fs root l1 ++ discovered Join fs root l2)%list,
     None) /\
  ~ In (os.Name d)
       (discovered Join fs root l1 ++ discovered Join fs root l2)%list /\
  (forall d' : os.FileInfo,
      In d' l2 -> os.IsDir d' = true ->
      In (Join [root; os.Name d']) (snd (getSubPackages Join ctx p fs))).
Proof.
  intros Hroot Hd He.
  assert (Hno : listsGoEntry fs (Join [root; os.Name d]) = false)
    by (unfold listsGoEntry; now rewrite He).
  assert (Hsplit : discovered Join fs root (l1 ++ d :: l2)
                   = (discovered Join fs root l1
                      ++ discovered Join fs root l2)%list).
  { rewrite discovered_app. f_equal.
    unfold discovered. cbn [List.filter]. now rewrite Hd, Hno. }
  destruct (getSubPackages_resolved p fs root _ Hroot)
    as (Hfst & pre & Hsnd).
  repeat split.
  - rewrite hasGoFiles_run. exact Hno.
  - rewrite Hfst. now rewrite Hsplit.
  - rewrite <- Hsplit. intros Hin.
    apply discovered_iff in Hin as (fi & _ & _ & _ & Hg). congruence.
  - intros d' Hin Hd'. rewrite Hsnd.
    apply in_or_app. right. apply visited_In; [|assumption].
    apply in_or_app. right. now right.
Qed.

(** C10.  [getSubPackages] leaves every field other than [SubPackages] as
    it found it, whether it returns an error or not; when it returns an
    error, [SubPackages] is untouched as well. *)
Theorem getSubPackages_frame (p : Package) (fs : FileSystem) :
  let p' := fst (fst (getSubPackages Join ctx p fs)) in
  let err := snd (fst (getSubPackages Join ctx p fs)) in
  Package.Name p' = Package.Name p /\
  Package.ImportPath p' = Package.ImportPath p /\
  Package.Doc p' = Package.Doc p /\
  Package.Synopsis p' = Package.Synopsis p /\
  Package.Constants p' = Package.Constants p /\
  Package.Variables p' = Package.Variables p /\
  Package.Functions p' = Package.Functions p /\
  Package.Types p' = Package.Types p /\
  (err <> None -> p' = p).
Proof.
  cbv zeta.
  destruct (resolvedRoot Join ctx p fs) as [[root fis]|] eqn:R.
  - destruct (getSubPackages_resolved p fs root fis R) as (-> & _).
    cbn. repeat split; congruence.
  - destruct (getSubPackages_unresolved p fs R) as (e & ->).
    cbn. repeat split; reflexivity.
Qed.

End DiscoveryTheorems.

(** ** The scan on the sample file systems *)

(** In the sample workspace the scan records "A" and "E". *)
Lemma getSubPackages_records_witness :
  resolvedRoot Sample.Join Sample.ctx Sample.pkg Sample.workspace
  = Some ("/home/gopher/go/src/example.com/p",
          [Sample.dir "A"; Sample.dir "B"; Sample.dir "C"; Sample.dir "D";
           Sample.dir "E"; Sample.file "p.go"]) /\
  exists subs : list string,
    fst (getSubPackages Sample.Join Sample.ctx Sample.pkg Sample.workspace)
    = (withSubPackages Sample.pkg ([] ++ subs)%list, None) /\
    subs = ["A"; "E"].
Proof.
  split; [reflexivity|].
  destruct (getSubPackages_records Sample.Join Sample.ctx Sample.pkg
              Sample.workspace _ _ eq_refl) as (subs & H1 & H2 & _).
  exists subs. split; [exact H1 | exact H2].
Defined.

(** A workspace root that cannot be read ends the scan, although the
    GOROOT directory of the package could be listed. *)
Lemma getSubPackages_primary_error_is_final_witness :
  Sample.locked (primaryRoot Sample.Join Sample.ctx Sample.pkg)
  = Err (Sample.denied "/home/gopher/go/src/example.com/p") /\
  os.IsNotExist (Sample.denied "/home/gopher/go/src/example.com/p") = false /\
  Sample.locked (secondaryRoot Sample.Join Sample.ctx Sample.pkg)
  = Ok [Sample.dir "A"] /\
  getSubPackages Sample.Join Sample.ctx Sample.pkg Sample.locked
  = ((Sample.pkg, Some (Sample.denied "/home/gopher/go/src/example.com/p")),
     ["/home/gopher/go/src/example.com/p"]).
Proof.
  split; [reflexivity|]. split; [reflexivity|]. split; [reflexivity|].
  apply (getSubPackages_primary_error_is_final Sample.Join Sample.ctx
           Sample.pkg Sample.locked); reflexivity.
Defined.

(** A package found under GOROOT only is scanned there; a package found
    nowhere yields the error of the second listing. *)
Lemma getSubPackages_root_fallback_witness :
  getSubPackages Sample.Join Sample.ctx Sample.pkg Sample.stdlib
  = ((withSubPackages Sample.pkg ["A"], None),
     ["/home/gopher/go/src/example.com/p"; "/usr/local/go/src/example.com/p";
      "/usr/local/go/src/example.com/p/A"]) /\
  fst (getSubPackages Sample.Join Sample.ctx Sample.pkg Sample.nowhere)
  = (Sample.pkg, Some (Sample.notExist "/usr/local/go/src/example.com/p")).
Proof.
  split.
  - destruct (getSubPackages_root_fallback Sample.Join Sample.ctx
                Sample.pkg Sample.stdlib) as (_ & _ & H & _).
    exact (H (Sample.notExist "/home/gopher/go/src/example.com/p")
             eq_refl eq_refl).
  - destruct (getSubPackages_root_fallback Sample.Join Sample.ctx
                Sample.pkg Sample.nowhere) as (_ & _ & _ & H).
    exact (H (Sample.notExist "/home/gopher/go/src/example.com/p")
             (Sample.notExist "/usr/local/go/src/example.com/p")
             eq_refl eq_refl).
Defined.

(** In the sample workspace "D" cannot be read: it is left out, and "E",
    which comes after it, is still listed and recorded. *)
Lemma unlistable_subdirectory_is_skipped_witness :
  Sample.workspace "/home/gopher/go/src/example.com/p/D"
  = Err (Sample.denied "/home/gopher/go/src/example.com/p/D") /\
  fst (getSubPackages Sample.Join Sample.ctx Sample.pkg Sample.workspace)
  = (withSubPackages Sample.pkg ["A"; "E"], None) /\
  In "/home/gopher/go/src/example.com/p/E"
     (snd (getSubPackages Sample.Join Sample.ctx Sample.pkg
             Sample.workspace)).
Proof.
  split; [reflexivity|].
  destruct (unlistable_subdirectory_is_skipped Sample.Join Sample.ctx
              Sample.pkg Sample.workspace
              "/home/gopher/go/src/example.com/p"
              [Sample.dir "A"; Sample.dir "B"; Sample.dir "C"]
              (Sample.dir "D")
              [Sample.dir "E"; Sample.file "p.go"]
              (Sample.denied "/home/gopher/go/src/example.com/p/D")
              eq_refl eq_refl eq_refl) as (_ & H1 & _ & H2).
  split; [exact H1|].
  apply (H2 (Sample.dir "E")); [now left | reflexivity].
Defined.

(** When the workspace root cannot be read the package comes back as it
    went in. *)
Lemma getSubPackages_frame_witness :
  snd (fst (getSubPackages Sample.Join Sample.ctx Sample.pkg Sample.locked))
  <> None /\
  fst (fst (getSubPackages Sample.Join Sample.ctx Sample.pkg Sample.locked))
  = Sample.pkg.
Proof.
  split; [discriminate|].
  apply (getSubPackages_frame Sample.Join Sample.ctx Sample.pkg Sample.locked).
  discriminate.
Defined.

(** C1, at a failing input.  A directory is to be recorded only if it
    directly contains a file whose name ends in ".go".  In [Sample.nested]
    the directory "A" holds no file, only a directory named "x.go", and
    the scan records "A" all the same: [hasGoFiles] tests the name of each
    entry and misses its kind, which the loop of [getSubPackages] does
    test with [fi.IsDir()]. *)
Lemma getSubPackages_counts_nested_directory :
  let root := "/home/gopher/go/src/example.com/p" in
  let p' := fst (fst (getSubPackages Sample.Join Sample.ctx Sample.pkg
                        Sample.nested)) in
  resolvedRoot Sample.Join Sample.ctx Sample.pkg Sample.nested
  = Some (root, [Sample.dir "A"]) /\
  Sample.nested (Sample.Join [root; "A"]) = Ok [Sample.dir "x.go"] /\
  Package.SubPackages p' = ["A"] /\
  ~ (In "A" (Package.SubPackages p') <->
     os.IsDir (Sample.dir "A") = true /\
     exists f : os.FileInfo,
       In f [Sample.dir "x.go"] /\ os.IsDir f = false /\
       HasSuffix (os.Name f) ".go").
Proof.
  cbv zeta. split; [reflexivity|]. split; [reflexivity|].
  split; [reflexivity|].
  intros [H _].
  destruct H as (_ & f & Hin & Hf & _); [now left|].
  destruct Hin as [<-|[]]. discriminate.
Qed.

(** ** The normalizer keeps length and order *)

Lemma rangeAssign_prefix {A B : Type} (zero : B) (f : A -> B) (vs : list A)
    (k : nat) :
  (k <= length vs)%nat ->
  foldl (fun (rv : list B) (i : nat) =>
           match vs !! i with
           | Some v => <[i := f v]> rv
           | None => rv
           end)
        (replicate (length vs) zero) (seq 0 k)
  = (List.map f (take k vs) ++ replicate (length vs - k) zero)%list.
Proof.
  induction k as [|k IH]; intros Hk.
  - simpl. now rewrite Nat.sub_0_r.
  - rewrite seq_S, foldl_app, IH by lia. simpl.
    destruct (lookup_lt_is_Some_2 vs k) as [v Hv]; [lia|].
    rewrite Hv, (take_S_r _ _ _ Hv), List.map_app. simpl.
    replace (length vs - k)%nat with (S (length vs - S k)) by lia.
    simpl. rewrite <- app_assoc. simpl.
    assert (Hlen : length (List.map f (take k vs)) = k)
      by (rewrite length_map, length_take; lia).
    rewrite insert_app_r_alt by lia.
    rewrite Hlen, Nat.sub_diag. reflexivity.
Qed.

(** The index loop computes the map of [f] over [vs]. *)
Lemma rangeAssign_map {A B : Type} (zero : B) (f : A -> B) (vs : list A) :
  rangeAssign zero f vs = List.map f vs.
Proof.
  unfold rangeAssign. rewrite rangeAssign_prefix by lia.
  rewrite Nat.sub_diag, firstn_all. simpl. apply app_nil_r.
Qed.

Lemma rangeAssign_builtInOrder {A B : Type} (zero : B) (f : A -> B)
    (vs : list A) :
  builtInOrder f vs (rangeAssign zero f vs).
Proof.
  rewrite rangeAssign_map. split; [apply length_map|].
  intros i. apply list_lookup_fmap.
Qed.

Section NewTheorems.

Variable Node : Type.
Variable FileSet : Type.
Variable printer_Fprint : FileSet -> Node -> string * option error.
Variable Program : Type.
Variable loader_Load : string -> Result Program.
Variable Fset : Program -> FileSet.
Variable doc_New : Program -> string -> doc.Package Node.
Variable doc_Synopsis : string -> string.
Variable Join : list string -> string.
Variable ctx : build.Context.

(** C6.  Each of [pkgValues], [pkgFunctions] and [pkgTypes] returns a
    sequence as long as its raw input whose [i]-th entity is built from
    the [i]-th raw declaration; so do the four nested sequences of every
    [Type] that [newType] builds, and so do the four declaration sequences
    of the package that [New] builds from the grouped declarations. *)
Theorem normalization_keeps_length_and_order :
  (forall vs fset,
      builtInOrder (fun v => newValue Node FileSet printer_Fprint v fset) vs
        (pkgValues Node FileSet printer_Fprint vs fset)) /\
  (forall fs fset,
      builtInOrder (fun f => newFunction Node FileSet printer_Fprint f fset)
        fs (pkgFunctions Node FileSet printer_Fprint fs fset)) /\
  (forall ts fset,
      builtInOrder (fun t => newType Node FileSet printer_Fprint t fset) ts
        (pkgTypes Node FileSet printer_Fprint ts fset)) /\
  (forall t fset,
      let T := newType Node FileSet printer_Fprint t fset in
      builtInOrder (fun v => newValue Node FileSet printer_Fprint v fset)
        (doc.Type_Consts t) (Type_.Constants T) /\
      builtInOrder (fun v => newValue Node FileSet printer_Fprint v fset)
        (doc.Type_Vars t) (Type_.Variables T) /\
      builtInOrder (fun f => newFunction Node FileSet printer_Fprint f fset)
        (doc.Type_Funcs t) (Type_.Functions T) /\
      builtInOrder (fun f => newFunction Node FileSet printer_Fprint f fset)
        (doc.Type_Methods t) (Type_.Methods T)) /\
  (forall prog name,
      let fset := Fset prog in
      let dpkg := doc_New prog name in
      let P := buildPackage Node FileSet printer_Fprint Program Fset doc_New doc_Synopsis
                 prog name in
      builtInOrder (fun v => newValue Node FileSet printer_Fprint v fset)
        (doc.Consts dpkg) (Package.Constants P) /\
      builtInOrder (fun v => newValue Node FileSet printer_Fprint v fset)
        (doc.Vars dpkg) (Package.Variables P) /\
      builtInOrder (fun f => newFunction Node FileSet printer_Fprint f fset)
        (doc.Funcs dpkg) (Package.Functions P) /\
      builtInOrder (fun t => newType Node FileSet printer_Fprint t fset)
        (doc.Types dpkg) (Package.Types P)).
Proof.
  repeat split; intros; apply rangeAssign_builtInOrder.
Qed.

(** C2.  [New] ends in exactly one of three ways.  The load fails: the
    zero [Package] and the load error, and no directory was listed.  The
    load succeeds and [getSubPackages] returns an error: the package as
    built, declaration fields populated and [SubPackages] empty, with that
    error.  The load succeeds and [getSubPackages] returns nil: the package
    with the same declaration fields and the discovered sub-packages, and
    no error. *)
Theorem New_outcomes (name : string) (fs : FileSystem) :
  let New' := New Node FileSet printer_Fprint Program loader_Load Fset
                doc_New doc_Synopsis Join ctx in
  let build' := buildPackage Node FileSet printer_Fprint Program Fset
                  doc_New doc_Synopsis in
  let populated' := populated Node FileSet printer_Fprint Program Fset
                      doc_New doc_Synopsis in
  (exists err : error,
      loader_Load name = Err err /\
      New' name fs = ((Package.zero, Some err), [])) \/
  (exists (prog : Program) (err : error),
      loader_Load name = Ok prog /\
      snd (fst (getSubPackages Join ctx (build' prog name) fs)) = Some err /\
      fst (New' name fs) = (build' prog name, Some err) /\
      populated' prog name (build' prog name) /\
      Package.SubPackages (build' prog name) = []) \/
  (exists (prog : Program) (root : string) (fis : list os.FileInfo),
      loader_Load name = Ok prog /\
      snd (fst (getSubPackages Join ctx (build' prog name) fs)) = None /\
      resolvedRoot Join ctx (build' prog name) fs = Some (root, fis) /\
      fst (New' name fs)
      = (withSubPackages (build' prog name) (discovered Join fs root fis),
         None) /\
      populated' prog name
        (withSubPackages (build' prog name) (discovered Join fs root fis))).
Proof.
  cbv zeta. unfold New.
  destruct (loader_Load name) as [prog|err] eqn:L.
  - right.
    set (pdoc := buildPackage Node FileSet printer_Fprint Program Fset
                   doc_New doc_Synopsis prog name).
    assert (Hpop : populated Node FileSet printer_Fprint Program Fset
                     doc_New doc_Synopsis prog name pdoc) by (repeat split).
    destruct (resolvedRoot Join ctx pdoc fs) as [[root fis]|] eqn:R.
    + right. exists prog, root, fis. fold pdoc.
      destruct (getSubPackages_resolved Join ctx pdoc fs root fis R)
        as (Hfst & _).
      unfold bind.
      destruct (getSubPackages Join ctx pdoc fs) as [[p' e'] t].
      cbn [fst snd] in Hfst |- *. injection Hfst as -> ->.
      repeat split; trivial; apply Hpop.
    + left. exists prog.
      destruct (getSubPackages_unresolved Join ctx pdoc fs R) as (e & Hfst).
      exists e. fold pdoc. unfold bind.
      destruct (getSubPackages Join ctx pdoc fs) as [[p' e'] t].
      cbn [fst snd] in Hfst |- *. injection Hfst as -> ->.
      repeat split; trivial; apply Hpop.
  - left. exists err. split; reflexivity.
Qed.

End NewTheorems.

(** The three outcomes on the sample loader: a documented package with its
    sub-packages, a load error with the zero package, and a built package
    returned next to the discovery error. *)
Example New_on_samples :
  fst (Sample.New "example.com/p" Sample.workspace)
  = (withSubPackages
       (buildPackage string unit Sample.Fprint unit (fun _ => tt)
          (fun _ _ => Sample.dpkg) Sample.Synopsis tt "example.com/p")
       ["A"; "E"],
     None) /\
  Sample.New "example.com/q" Sample.workspace
  = ((Package.zero,
      Some (errorString "couldn't load packages due to errors")), []) /\
  fst (Sample.New "example.com/p" Sample.nowhere)
  = (buildPackage string unit Sample.Fprint unit (fun _ => tt)
       (fun _ _ => Sample.dpkg) Sample.Synopsis tt "example.com/p",
     Some (Sample.notExist "/usr/local/go/src/example.com/p")).
Proof. repeat split. Qed.

(** * Part IV: further properties of the code *)

(** ** [hasGoFiles] *)

(** [hasGoFiles] lists the directory [path] and nothing else, does not
    look at the [os.FileInfo] it is passed, and answers true exactly when
    that listing succeeds and shows an entry whose name ends in ".go". *)
Theorem hasGoFiles_spec (path : string) (fi fi' : os.FileInfo)
    (fs : FileSystem) :
  hasGoFiles path fi fs = hasGoFiles path fi' fs /\
  snd (hasGoFiles path fi fs) = [path] /\
  (fst (hasGoFiles path fi fs) = true <->
   exists (es : list os.FileInfo) (e : os.FileInfo),
     fs path = Ok es /\ In e es /\ HasSuffix (os.Name e) ".go").
Proof.
  rewrite !hasGoFiles_run. cbn [fst snd].
  split; [reflexivity|]. split; [reflexivity|].
  apply listsGoEntry_iff.
Qed.

(** ** The directories [getSubPackages] reads, and when it fails *)

Section DiscoveryReach.

Variable Join : list string -> string.
Variable ctx : build.Context.

(** [getSubPackages] goes one level deep.  The directories it lists are
    the primary root, or the primary and then the secondary root, followed
    by the directory entries of the resolved root, each once and in
    listing order.  Entries that are not directories are never listed, and
    nothing below a sub-directory is. *)
Theorem getSubPackages_lists_one_level (p : Package) (fs : FileSystem) :
  exists roots : list string,
    (roots = [primaryRoot Join ctx p] \/
     roots = [primaryRoot Join ctx p; secondaryRoot Join ctx p]) /\
    snd (getSubPackages Join ctx p fs)
    = (roots
       ++ match resolvedRoot Join ctx p fs with
          | Some (root, fis) =>
              List.map (fun fi => Join [root; os.Name fi])
                       (List.filter os.IsDir fis)
          | None => []
          end)%list.
Proof.
  unfold resolvedRoot.
  split_on_roots Join ctx p fs; run_getSubPackages; cbn [snd].
  - exists [primaryRoot Join ctx p]. split; [now left | reflexivity].
  - exists [primaryRoot Join ctx p; secondaryRoot Join ctx p].
    split; [now right | reflexivity].
  - exists [primaryRoot Join ctx p; secondaryRoot Join ctx p].
    split; [now right | reflexivity].
  - exists [primaryRoot Join ctx p]. split; [now left | reflexivity].
Qed.

(** [getSubPackages] returns nil exactly when the primary root can be
    listed, or does not exist while the secondary root can be listed.  An
    error it returns is the error of the listing of one of the two roots:
    the listing of a sub-directory never supplies it. *)
Theorem getSubPackages_error_iff (p : Package) (fs : FileSystem) :
  (snd (fst (getSubPackages Join ctx p fs)) = None <->
   (exists fis, fs (primaryRoot Join ctx p) = Ok fis) \/
   (exists e1 fis,
       fs (primaryRoot Join ctx p) = Err e1 /\ os.IsNotExist e1 = true /\
       fs (secondaryRoot Join ctx p) = Ok fis)) /\
  (forall e : error,
      snd (fst (getSubPackages Join ctx p fs)) = Some e ->
      fs (primaryRoot Join ctx p) = Err e \/
      fs (secondaryRoot Join ctx p) = Err e).
Proof.
  split_on_roots Join ctx p fs; run_getSubPackages; cbn [fst snd]; split.
  - split; [intros _; left; eauto | reflexivity].
  - discriminate.
  - split; [intros _; right; eauto | reflexivity].
  - discriminate.
  - split; [discriminate|].
    intros [(fis & H)|(e & fis & H1 & _ & H2)]; congruence.
  - intros e [= <-]. now right.
  - split; [discriminate|].
    intros [(fis & H)|(e & fis & H1 & H2 & _)]; congruence.
  - intros e [= <-]. now left.
Qed.

(** Of the package it is given, [getSubPackages] reads only [ImportPath],
    and it only appends to [SubPackages].  Two packages with the same
    import path get the same error, cause the same listings, and have the
    same names appended. *)
Theorem getSubPackages_reads_ImportPath (p q : Package) (fs : FileSystem) :
  Package.ImportPath p = Package.ImportPath q ->
  snd (fst (getSubPackages Join ctx p fs))
  = snd (fst (getSubPackages Join ctx q fs)) /\
  snd (getSubPackages Join ctx p fs) = snd (getSubPackages Join ctx q fs) /\
  exists subs : list string,
    Package.SubPackages (fst (fst (getSubPackages Join ctx p fs)))
    = (Package.SubPackages p ++ subs)%list /\
    Package.SubPackages (fst (fst (getSubPackages Join ctx q fs)))
    = (Package.SubPackages q ++ subs)%list.
Proof.
  intros Hpath.
  assert (H1 : primaryRoot Join ctx q = primaryRoot Join ctx p)
    by (unfold primaryRoot; now rewrite Hpath).
  assert (H2 : secondaryRoot Join ctx q = secondaryRoot Join ctx p)
    by (unfold secondaryRoot; now rewrite Hpath).
  split_on_roots Join ctx p fs.
  - pose proof E1 as E1q. rewrite <- H1 in E1q.
    rewrite (getSubPackages_primary_ok Join ctx p fs _ E1),
            (getSubPackages_primary_ok Join ctx q fs _ E1q), H1.
    cbn [fst snd]. repeat split. eexists. split; reflexivity.
  - pose proof E1 as E1q. rewrite <- H1 in E1q.
    pose proof E2 as E2q. rewrite <- H2 in E2q.
    rewrite (getSubPackages_secondary_ok Join ctx p fs _ _ E1 N1 E2),
            (getSubPackages_secondary_ok Join ctx q fs _ _ E1q N1 E2q), H1, H2.
    cbn [fst snd]. repeat split. eexists. split; reflexivity.
  - pose proof E1 as E1q. rewrite <- H1 in E1q.
    pose proof E2 as E2q. rewrite <- H2 in E2q.
    rewrite (getSubPackages_secondary_fatal Join ctx p fs _ _ E1 N1 E2),
            (getSubPackages_secondary_fatal Join ctx q fs _ _ E1q N1 E2q), H1, H2.
    cbn [fst snd]. repeat split. exists []. now rewrite !app_nil_r.
  - pose proof E1 as E1q. rewrite <- H1 in E1q.
    rewrite (getSubPackages_primary_fatal Join ctx p fs _ E1 N1),
            (getSubPackages_primary_fatal Join ctx q fs _ E1q N1), H1.
    cbn [fst snd]. repeat split. exists []. now rewrite !app_nil_r.
Qed.

End DiscoveryReach.

(** ** What ends up in [SubPackages] *)

Section DiscoveryResult.

Variable Join : list string -> string.
Variable ctx : build.Context.

Lemma discovered_sublist (fs : FileSystem) (root : string)
    (fis : list os.FileInfo) :
  sublist (discovered Join fs root fis)
          (List.map os.Name (List.filter os.IsDir fis)).
Proof.
  unfold discovered. induction fis as [|fi rest IH]; cbn [List.filter].
  - constructor.
  - destruct (os.IsDir fi); cbn [andb]; [|exact IH].
    destruct (listsGoEntry fs (Join [root; os.Name fi])); cbn [List.map].
    + now constructor.
    + now constructor.
Qed.

Lemma dirNames_sublist (fis : list os.FileInfo) :
  sublist (List.map os.Name (List.filter os.IsDir fis)) (List.map os.Name fis).
Proof.
  induction fis as [|fi rest IH]; cbn [List.filter List.map].
  - constructor.
  - destruct (os.IsDir fi); cbn [List.map]; now constructor.
Qed.

(** When a root resolves, the names appended to [SubPackages] are a
    subsequence of the names of the directories in its listing: none is
    invented, reordered or repeated beyond the listing.  In particular
    there are at most as many as there are directory entries, and they are
    pairwise distinct when the names in the listing are. *)
Theorem getSubPackages_appends_sublist p fs root fis :
  resolvedRoot Join ctx p fs = Some (root, fis) ->
  exists subs : list string,
    Package.SubPackages (fst (fst (getSubPackages Join ctx p fs)))
    = (Package.SubPackages p ++ subs)%list /\
    sublist subs (List.map os.Name (List.filter os.IsDir fis)) /\
    (length subs <= length (List.filter os.IsDir fis))%nat /\
    (NoDup (List.map os.Name fis) -> NoDup subs).
Proof.
  intros H. exists (discovered Join fs root fis).
  destruct (getSubPackages_resolved Join ctx p fs root fis H) as (-> & _).
  pose proof (discovered_sublist fs root fis) as Hsub.
  split; [reflexivity|]. split; [exact Hsub|]. split.
  - apply sublist_length in Hsub. now rewrite length_map in Hsub.
  - intros Hnd. eapply sublist_NoDup; [|exact Hsub].
    eapply sublist_NoDup; [exact Hnd | apply dirNames_sublist].
Qed.

(** [getSubPackages] appends and never resets: run a second time on its
    own result, against the same file system, it returns the same error
    and appends the same names once more. *)
Theorem getSubPackages_twice (p : Package) (fs : FileSystem) :
  let r1 := fst (getSubPackages Join ctx p fs) in
  let r2 := fst (getSubPackages Join ctx (fst r1) fs) in
  snd r2 = snd r1 /\
  exists subs : list string,
    Package.SubPackages (fst r1) = (Package.SubPackages p ++ subs)%list /\
    Package.SubPackages (fst r2)
    = (Package.SubPackages p ++ subs ++ subs)%list.
Proof.
  cbv zeta.
  destruct (resolvedRoot Join ctx p fs) as [[root fis]|] eqn:R.
  - destruct (getSubPackages_resolved Join ctx p fs root fis R) as (-> & _).
    cbn [fst snd].
    set (p1 := withSubPackages p
                 (Package.SubPackages p ++ discovered Join fs root fis)).
    assert (R1 : resolvedRoot Join ctx p1 fs = Some (root, fis)) by exact R.
    destruct (getSubPackages_resolved Join ctx p1 fs root fis R1) as (-> & _).
    cbn [fst snd]. split; [reflexivity|].
    exists (discovered Join fs root fis). split; [reflexivity|].
    unfold p1. cbn [Package.SubPackages withSubPackages].
    now rewrite <- app_assoc.
  - destruct (getSubPackages_unresolved Join ctx p fs R) as (e & He).
    rewrite He. cbn [fst snd]. rewrite He. cbn [fst snd].
    split; [reflexivity|]. exists []. now rewrite !app_nil_r.
Qed.

End DiscoveryResult.

(** In the sample workspace the appended names are "A" and "E", in the
    order of the listing and distinct. *)
Lemma getSubPackages_appends_sublist_witness :
  resolvedRoot Sample.Join Sample.ctx Sample.pkg Sample.workspace
  = Some ("/home/gopher/go/src/example.com/p",
          [Sample.dir "A"; Sample.dir "B"; Sample.dir "C"; Sample.dir "D";
           Sample.dir "E"; Sample.file "p.go"]) /\
  exists subs : list string,
    Package.SubPackages
      (fst (fst (getSubPackages Sample.Join Sample.ctx Sample.pkg
                   Sample.workspace)))
    = ([] ++ subs)%list /\
    sublist subs ["A"; "B"; "C"; "D"; "E"] /\
    (length subs <= 5)%nat.
Proof.
  split; [reflexivity|].
  destruct (getSubPackages_appends_sublist Sample.Join Sample.ctx Sample.pkg
              Sample.workspace _ _ eq_refl) as (subs & H1 & H2 & H3 & _).
  exists subs. split; [exact H1|]. split; [exact H2 | exact H3].
Defined.

(** Two packages that differ in everything but the import path are
    scanned alike. *)
Lemma getSubPackages_reads_ImportPath_witness :
  Package.ImportPath Sample.pkg
  = Package.ImportPath
      (Package.mk "other" "example.com/p" "Doc." "Doc." [] [] [] [] ["old"]) /\
  exists subs : list string,
    Package.SubPackages
      (fst (fst (getSubPackages Sample.Join Sample.ctx Sample.pkg
                   Sample.workspace)))
    = ([] ++ subs)%list /\
    Package.SubPackages
      (fst (fst (getSubPackages Sample.Join Sample.ctx
                   (Package.mk "other" "example.com/p" "Doc." "Doc."
                      [] [] [] [] ["old"])
                   Sample.workspace)))
    = (["old"] ++ subs)%list.
Proof.
  split; [reflexivity|].
  destruct (getSubPackages_reads_ImportPath Sample.Join Sample.ctx Sample.pkg
              (Package.mk "other" "example.com/p" "Doc." "Doc."
                 [] [] [] [] ["old"])
              Sample.workspace eq_refl) as (_ & _ & H).
  exact H.
Defined.

(** ** [New] and its two variants *)

Section NewFacts.

Variable Node : Type.
Variable FileSet : Type.
Variable Program : Type.
Variable loader_Load : string -> Result Program.
Variable Fset : Program -> FileSet.
Variable doc_New : Program -> string -> doc.Package Node.
Variable doc_Synopsis : string -> string.
Variable Join : list string -> string.
Variable ctx : build.Context.

(** After a successful load, [New] is [getSubPackages] run on the package
    it has built. *)
Lemma New_run (Fprint : FileSet -> Node -> string * option error)
    (name : string) (fs : FileSystem) :
  New Node FileSet Fprint Program loader_Load Fset doc_New doc_Synopsis Join ctx name fs
  = match loader_Load name with
    | Err err => ((Package.zero, Some err), [])
    | Ok prog =>
        getSubPackages Join ctx
          (buildPackage Node FileSet Fprint Program Fset doc_New doc_Synopsis prog name) fs
    end.
Proof.
  unfold New. destruct (loader_Load name) as [prog|err]; [|reflexivity].
  unfold bind.
  destruct (getSubPackages Join ctx _ fs) as [[p' [e|]] t];
    unfold ret; now rewrite app_nil_r.
Qed.

(** After a successful load, also when discovery fails, the [Synopsis] of
    the package [New] returns is [doc.Synopsis] of its [Doc]; next to a
    load error both fields are empty.  So [Synopsis] is [doc.Synopsis] of
    [Doc] in every package [New] returns, as [doc.Synopsis] maps the empty
    text to the empty text. *)
Theorem New_Synopsis_of_Doc
    (Fprint : FileSet -> Node -> string * option error)
    (name : string) (fs : FileSystem) :
  let p := fst (fst (New Node FileSet Fprint Program loader_Load Fset doc_New
                       doc_Synopsis Join ctx name fs)) in
  match loader_Load name with
  | Ok _ => Package.Synopsis p = doc_Synopsis (Package.Doc p)
  | Err _ => Package.Synopsis p = "" /\ Package.Doc p = ""
  end /\
  (doc_Synopsis "" = "" ->
   Package.Synopsis p = doc_Synopsis (Package.Doc p)).
Proof.
  cbv zeta. rewrite New_run.
  destruct (loader_Load name) as [prog|err].
  - set (pdoc := buildPackage Node FileSet Fprint Program Fset doc_New
                   doc_Synopsis prog name).
    assert (H : Package.Synopsis (fst (fst (getSubPackages Join ctx pdoc fs)))
                = doc_Synopsis
                    (Package.Doc (fst (fst (getSubPackages Join ctx pdoc fs))))).
    { destruct (resolvedRoot Join ctx pdoc fs) as [[root fis]|] eqn:R.
      - now destruct (getSubPackages_resolved Join ctx pdoc fs root fis R)
          as (-> & _).
      - now destruct (getSubPackages_unresolved Join ctx pdoc fs R)
          as (e & ->). }
    split; [exact H | intros _; exact H].
  - cbn [fst snd Package.zero Package.Synopsis Package.Doc].
    split; [split; reflexivity|]. intros H. now rewrite H.
Qed.

(** Rendering cannot make [New] fail, nor change what it reads.  With any
    two printers, whatever they write and whatever errors they report,
    [New] returns the same error, lists the same directories, and returns
    packages with the same name, import path, documentation, synopsis and
    sub-packages, whose declarations carry the same documentation and
    names in the same order. *)
Theorem New_independent_of_printer
    (Fprint1 Fprint2 : FileSet -> Node -> string * option error)
    (name : string) (fs : FileSystem) :
  let r1 := New Node FileSet Fprint1 Program loader_Load Fset doc_New doc_Synopsis
              Join ctx name fs in
  let r2 := New Node FileSet Fprint2 Program loader_Load Fset doc_New doc_Synopsis
              Join ctx name fs in
  let p1 := fst (fst r1) in
  let p2 := fst (fst r2) in
  snd (fst r1) = snd (fst r2) /\
  snd r1 = snd r2 /\
  Package.Name p1 = Package.Name p2 /\
  Package.ImportPath p1 = Package.ImportPath p2 /\
  Package.Doc p1 = Package.Doc p2 /\
  Package.Synopsis p1 = Package.Synopsis p2 /\
  Package.SubPackages p1 = Package.SubPackages p2 /\
  List.map Value.Doc (Package.Constants p1)
  = List.map Value.Doc (Package.Constants p2) /\
  List.map Value.Doc (Package.Variables p1)
  = List.map Value.Doc (Package.Variables p2) /\
  List.map (fun f => (Function.Doc f, Function.Name f)) (Package.Functions p1)
  = List.map (fun f => (Function.Doc f, Function.Name f))
      (Package.Functions p2) /\
  List.map (fun t => (Type_.Doc t, Type_.Name t)) (Package.Types p1)
  = List.map (fun t => (Type_.Doc t, Type_.Name t)) (Package.Types p2).
Proof.
  cbv zeta. rewrite !New_run.
  destruct (loader_Load name) as [prog|err]; [|repeat split].
  set (b1 := buildPackage Node FileSet Fprint1 Program Fset doc_New doc_Synopsis prog name).
  set (b2 := buildPackage Node FileSet Fprint2 Program Fset doc_New doc_Synopsis prog name).
  assert (Hdecl :
    List.map Value.Doc (Package.Constants b1)
    = List.map Value.Doc (Package.Constants b2) /\
    List.map Value.Doc (Package.Variables b1)
    = List.map Value.Doc (Package.Variables b2) /\
    List.map (fun f => (Function.Doc f, Function.Name f)) (Package.Functions b1)
    = List.map (fun f => (Function.Doc f, Function.Name f))
        (Package.Functions b2) /\
    List.map (fun t => (Type_.Doc t, Type_.Name t)) (Package.Types b1)
    = List.map (fun t => (Type_.Doc t, Type_.Name t)) (Package.Types b2)).
  { unfold b1, b2, buildPackage, pkgValues, pkgFunctions, pkgTypes.
    cbn [Package.Constants Package.Variables Package.Functions Package.Types].
    rewrite !rangeAssign_map, !List.map_map. repeat split. }
  destruct Hdecl as (Hc & Hv & Hf & Ht).
  split_on_roots Join ctx b1 fs.
  - pose proof (E1 : fs (primaryRoot Join ctx b2) = Ok fis1) as E1'.
    rewrite (getSubPackages_primary_ok Join ctx b1 fs _ E1),
            (getSubPackages_primary_ok Join ctx b2 fs _ E1').
    cbn [fst snd]. repeat split; assumption.
  - pose proof (E1 : fs (primaryRoot Join ctx b2) = Err e1) as E1'.
    pose proof (E2 : fs (secondaryRoot Join ctx b2) = Ok fis2) as E2'.
    rewrite (getSubPackages_secondary_ok Join ctx b1 fs _ _ E1 N1 E2),
            (getSubPackages_secondary_ok Join ctx b2 fs _ _ E1' N1 E2').
    cbn [fst snd]. repeat split; assumption.
  - pose proof (E1 : fs (primaryRoot Join ctx b2) = Err e1) as E1'.
    pose proof (E2 : fs (secondaryRoot Join ctx b2) = Err e2) as E2'.
    rewrite (getSubPackages_secondary_fatal Join ctx b1 fs _ _ E1 N1 E2),
            (getSubPackages_secondary_fatal Join ctx b2 fs _ _ E1' N1 E2').
    cbn [fst snd]. repeat split; assumption.
  - pose proof (E1 : fs (primaryRoot Join ctx b2) = Err e1) as E1'.
    rewrite (getSubPackages_primary_fatal Join ctx b1 fs _ E1 N1),
            (getSubPackages_primary_fatal Join ctx b2 fs _ E1' N1).
    cbn [fst snd]. repeat split; assumption.
Qed.

(** The variant with discovery extends the variant of pkgdoc.go: on every
    input and file system the eight fields they share are equal, the plain
    variant fails exactly when the load fails, and then the other fails
    with the same error. *)
Theorem New_extends_Plain_New
    (Fprint : FileSet -> Node -> string * option error)
    (name : string) (fs : FileSystem) :
  let r := New Node FileSet Fprint Program loader_Load Fset doc_New doc_Synopsis
             Join ctx name fs in
  let r0 := Plain.New Node FileSet Fprint Program loader_Load Fset doc_New doc_Synopsis
              name in
  withoutSubPackages (fst (fst r)) = fst r0 /\
  (forall err : error, snd r0 = Some err <-> loader_Load name = Err err) /\
  (forall err : error, snd r0 = Some err -> snd (fst r) = Some err).
Proof.
  cbv zeta. rewrite New_run. unfold Plain.New.
  destruct (loader_Load name) as [prog|err]; cbn [fst snd].
  - set (pdoc := buildPackage Node FileSet Fprint Program Fset doc_New doc_Synopsis
                   prog name).
    split; [|split; [split|]; discriminate].
    destruct (resolvedRoot Join ctx pdoc fs) as [[root fis]|] eqn:R.
    + now destruct (getSubPackages_resolved Join ctx pdoc fs root fis R)
        as (-> & _).
    + now destruct (getSubPackages_unresolved Join ctx pdoc fs R) as (e & ->).
  - split; [reflexivity|]. split; [|trivial].
    intros err'. split; congruence.
Qed.

End NewFacts.

(** ** The footprint of the scan in the file system *)

Section Footprint.

Variable Join : list string -> string.
Variable ctx : build.Context.

Lemma discovered_agree (fs fs' : FileSystem) (root : string)
    (fis : list os.FileInfo) :
  (forall d : string, In d (visited Join root fis) -> fs' d = fs d) ->
  discovered Join fs' root fis = discovered Join fs root fis.
Proof.
  induction fis as [|fi rest IH]; intros H; [reflexivity|].
  change (fi :: rest) with ([fi] ++ rest)%list.
  rewrite !discovered_app, IH.
  - f_equal. unfold discovered. cbn [List.filter].
    destruct (os.IsDir fi) eqn:D; [|reflexivity]. cbn [andb].
    assert (Hfi : fs' (Join [root; os.Name fi]) = fs (Join [root; os.Name fi])).
    { apply H. unfold visited. cbn [List.filter]. rewrite D. now left. }
    unfold listsGoEntry. now rewrite Hfi.
  - intros d Hd. apply H. unfold visited in *. cbn [List.filter].
    destruct (os.IsDir fi); [now right | exact Hd].
Qed.

(** The result of [getSubPackages] depends on the file system only
    through the directories it lists: a file system that answers alike
    for every directory listed in a run gives the same package, the same
    error and the same listings. *)
Theorem getSubPackages_footprint (p : Package) (fs fs' : FileSystem) :
  (forall d : string,
      In d (snd (getSubPackages Join ctx p fs)) -> fs' d = fs d) ->
  getSubPackages Join ctx p fs' = getSubPackages Join ctx p fs.
Proof.
  split_on_roots Join ctx p fs; intros H.
  - rewrite (getSubPackages_primary_ok Join ctx p fs _ E1) in H |- *.
    cbn [snd] in H.
    assert (E1' : fs' (primaryRoot Join ctx p) = Ok fis1)
      by (rewrite (H _ (or_introl eq_refl)); exact E1).
    rewrite (getSubPackages_primary_ok Join ctx p fs' _ E1').
    rewrite (discovered_agree fs fs'); [reflexivity|].
    intros d Hd. apply H. now right.
  - rewrite (getSubPackages_secondary_ok Join ctx p fs _ _ E1 N1 E2) in H |- *.
    cbn [snd] in H.
    assert (E1' : fs' (primaryRoot Join ctx p) = Err e1)
      by (rewrite (H _ (or_introl eq_refl)); exact E1).
    assert (E2' : fs' (secondaryRoot Join ctx p) = Ok fis2)
      by (rewrite (H _ (or_intror (or_introl eq_refl))); exact E2).
    rewrite (getSubPackages_secondary_ok Join ctx p fs' _ _ E1' N1 E2').
    rewrite (discovered_agree fs fs'); [reflexivity|].
    intros d Hd. apply H. right. now right.
  - rewrite (getSubPackages_secondary_fatal Join ctx p fs _ _ E1 N1 E2) in H |- *.
    cbn [snd] in H.
    assert (E1' : fs' (primaryRoot Join ctx p) = Err e1)
      by (rewrite (H _ (or_introl eq_refl)); exact E1).
    assert (E2' : fs' (secondaryRoot Join ctx p) = Err e2)
      by (rewrite (H _ (or_intror (or_introl eq_refl))); exact E2).
    now rewrite (getSubPackages_secondary_fatal Join ctx p fs' _ _ E1' N1 E2').
  - rewrite (getSubPackages_primary_fatal Join ctx p fs _ E1 N1) in H |- *.
    cbn [snd] in H.
    assert (E1' : fs' (primaryRoot Join ctx p) = Err e1)
      by (rewrite (H _ (or_introl eq_refl)); exact E1).
    now rewrite (getSubPackages_primary_fatal Join ctx p fs' _ E1' N1).
Qed.

End Footprint.

(** What lies two levels down, or in another package, does not matter. *)
Lemma getSubPackages_footprint_witness :
  Sample.grown "/usr/local/go/src/example.com/p/A/deep"
  <> Sample.stdlib "/usr/local/go/src/example.com/p/A/deep" /\
  getSubPackages Sample.Join Sample.ctx Sample.pkg Sample.grown
  = getSubPackages Sample.Join Sample.ctx Sample.pkg Sample.stdlib.
Proof.
  split; [discriminate|].
  apply getSubPackages_footprint.
  intros d Hd. vm_compute in Hd.
  destruct Hd as [<-|[<-|[<-|[]]]]; reflexivity.
Defined.
